(** * junixsocket native bridge: capability query and socket creation

    A shallow embedding of [capabilities.c] and [socket.c] of
    junixsocket-native, and the properties of the capability bitmask and
    of the descriptor life cycle that the design document states.

    C [int]/[jint] values are modelled as [Z].  Neither function performs
    arithmetic on them: they are compared with constants or combined with
    [|=] on the constants [1 << 0] .. [1 << 8], so no wrap-around occurs.

    The JNI environment, the Java heap cell behind a [FileDescriptor], the
    C [errno] and the operating system are threaded through the calls as
    one explicit [World] in a small state monad. *)

From Stdlib Require Import ZArith Bool List String Lia.
Import ListNotations.
Local Open Scope Z_scope.

(** ** The world the native code runs in *)

(** A JNI object reference (the [jobject fd] handed to [createSocket]). *)
Definition jobject := nat.

(** The exception classes of [exceptions.h] that the two files use. *)
Inductive ExceptionType : Type :=
  | kExceptionSocketException.

(** What is pending in the [JNIEnv] after a throw: either an exception of a
    given class with a literal message, or the exception built from an OS
    error number together with the descriptor object it concerns. *)
Inductive Throwable : Type :=
  | Thrown (exceptionType : ExceptionType) (message : string)
  | ThrownErrnum (errnum : Z) (fd : jobject).

(** Calls into the operating system, as logged. *)
Inductive Syscall : Type :=
  | sys_socket (domain type protocol : Z).

(** The process-wide flags the three runtime probes report. *)
Record Probes : Type := mkProbes {
  probe_unix : bool;
  probe_cast_as_redirect : bool;
  probe_tipc : bool
}.

Record World : Type := mkWorld {
  w_fd : jobject -> Z;          (* the native value held by each descriptor object *)
  w_pending : option Throwable; (* the pending exception of the JNIEnv *)
  w_errno : Z;                  (* the current OS error code *)
  w_calls : list Syscall;       (* OS calls made so far, oldest first *)
  w_os : nat -> Z * Z;          (* what the n-th OS call returns, and errno after it *)
  w_probes : Probes
}.

Definition set_fd (w : World) (fd : jobject) (v : Z) : World :=
  mkWorld (fun o => if Nat.eqb o fd then v else w_fd w o)
          (w_pending w) (w_errno w) (w_calls w) (w_os w) (w_probes w).

Definition set_pending (w : World) (t : Throwable) : World :=
  mkWorld (w_fd w) (Some t) (w_errno w) (w_calls w) (w_os w) (w_probes w).

Definition after_syscall (w : World) (c : Syscall) (e : Z) : World :=
  mkWorld (w_fd w) (w_pending w) e (w_calls w ++ [c]) (w_os w) (w_probes w).

(** ** A state monad over the world *)

Definition JNI (A : Type) : Type := World -> A * World.

Definition ret {A : Type} (a : A) : JNI A := fun w => (a, w).

Definition bind {A B : Type} (m : JNI A) (k : A -> JNI B) : JNI B :=
  fun w => let (a, w') := m w in k a w'.

Declare Scope jni_scope.
Delimit Scope jni_scope with jni.
Notation "x <- m ;; k" := (bind m (fun x => k))
  (at level 100, m at next level, right associativity) : jni_scope.
Notation "m ;;; k" := (bind m (fun _ => k))
  (at level 100, right associativity) : jni_scope.
Local Open Scope jni_scope.

Definition result {A : Type} (m : JNI A) (w : World) : A := fst (m w).
Definition world_after {A : Type} (m : JNI A) (w : World) : World := snd (m w).

(** ** Helpers of the bridge that live outside the two files *)

(** Modelled from the spec: [_getFD] of [filedescriptors.h] is missing; it
    reads the native descriptor value of a handle. *)
Definition _getFD (fd : jobject) : JNI Z :=
  fun w => (w_fd w fd, w).

(** Modelled from the spec: [_initFD] of [filedescriptors.h] is missing; it
    binds a native descriptor value into the handle. *)
Definition _initFD (fd : jobject) (handle : Z) : JNI unit :=
  fun w => (tt, set_fd w fd handle).

(** Modelled from the spec: [_throwException] of [exceptions.h] is missing;
    it surfaces a typed failure with a message to the caller, and returns. *)
Definition _throwException (exceptionType : ExceptionType) (message : string)
  : JNI unit :=
  fun w => (tt, set_pending w (Thrown exceptionType message)).

(** Modelled from the spec: [_throwErrnumException] of [exceptions.h] is
    missing; it surfaces an OS failure carrying the error code and the
    handle it concerns. *)
Definition _throwErrnumException (errnum : Z) (fd : jobject) : JNI unit :=
  fun w => (tt, set_pending w (ThrownErrnum errnum fd)).

(** The OS call [socket(domain, type, protocol)]: the answer and the error
    code left behind are whatever the operating system decides. *)
Definition socket (domain type protocol : Z) : JNI Z :=
  fun w =>
    let (r, e) := w_os w (List.length (w_calls w)) in
    (r, after_syscall w (sys_socket domain type protocol) e).

(** The macro [socket_errno]: the current OS error code. *)
Definition socket_errno : JNI Z :=
  fun w => (w_errno w, w).

(** Modelled from the spec: [supportsUNIX] of [init.h] is missing; it
    reports whether the platform supports the UNIX-domain address family,
    a process-wide fact that the query only reads. *)
Definition supportsUNIX : JNI bool :=
  fun w => (probe_unix (w_probes w), w).

(** Modelled from the spec: [supportsCastAsRedirect] of [filedescriptors.h]
    is missing; it reports whether a descriptor may be treated as a
    byte-stream redirect target. *)
Definition supportsCastAsRedirect : JNI bool :=
  fun w => (probe_cast_as_redirect (w_probes w), w).

(** Modelled from the spec: [supportsTIPC] of [init.h] is missing; it
    reports whether the platform exposes the TIPC address family. *)
Definition supportsTIPC : JNI bool :=
  fun w => (probe_tipc (w_probes w), w).

(** ** capabilities.c *)

(** The preprocessor symbols the capability query tests with [defined]. *)
Inductive Macro : Type :=
  | LOCAL_PEERCRED | LOCAL_PEEREPID | LOCAL_PEEREUUID
  | SO_PEERCRED | SO_PEERID | __NetBSD__ | __sun | __sun__
  | SIO_AF_UNIX_GETPEERPID
  | _OS400
  | junixsocket_have_ancillary
  | __linux__
  | _WIN32.

Definition CAPABILITY_PEER_CREDENTIALS : Z := Z.shiftl 1 0.
Definition CAPABILITY_ANCILLARY_MESSAGES : Z := Z.shiftl 1 1.
Definition CAPABILITY_FILE_DESCRIPTORS : Z := Z.shiftl 1 2.
Definition CAPABILITY_ABSTRACT_NAMESPACE : Z := Z.shiftl 1 3.
Definition CAPABILITY_UNIX_DATAGRAMS : Z := Z.shiftl 1 4.
Definition CAPABILITY_NATIVE_SOCKETPAIR : Z := Z.shiftl 1 5.
Definition CAPABILITY_FD_AS_REDIRECT : Z := Z.shiftl 1 6.
Definition CAPABILITY_TIPC : Z := Z.shiftl 1 7.
Definition CAPABILITY_UNIX_DOMAIN : Z := Z.shiftl 1 8.

Definition init_capabilities : JNI unit := ret tt.

Definition destroy_capabilities : JNI unit := ret tt.

(** The condition of the [#if] that guards the peer-credential flag: the
    build saw at least one peer-credential retrieval mechanism. *)
Definition has_peer_credential_mechanism (defined : Macro -> bool) : bool :=
  defined LOCAL_PEERCRED || defined LOCAL_PEEREPID || defined LOCAL_PEEREUUID
  || defined SO_PEERCRED || defined SO_PEERID || defined __NetBSD__
  || defined __sun || defined __sun__ || defined SIO_AF_UNIX_GETPEERPID.

Section Build.

(** The build configuration: which symbols the compiler saw defined. *)
Variable defined : Macro -> bool.

(** The statements inside [if(supportsUNIX()) { ... }]. *)
Definition unix_branch (capabilities : Z) : Z :=
  let capabilities := Z.lor capabilities CAPABILITY_UNIX_DOMAIN in
  let capabilities :=
    if has_peer_credential_mechanism defined
    then
      if defined _OS400
      then capabilities (* SO_PEERID appears to be not implemented *)
      else Z.lor capabilities CAPABILITY_PEER_CREDENTIALS
    else capabilities in
  let capabilities :=
    if defined junixsocket_have_ancillary
    then
      let capabilities := Z.lor capabilities CAPABILITY_ANCILLARY_MESSAGES in
      Z.lor capabilities CAPABILITY_FILE_DESCRIPTORS
    else capabilities in
  let capabilities :=
    if defined __linux__
    then Z.lor capabilities CAPABILITY_ABSTRACT_NAMESPACE
    else capabilities in
  let capabilities :=
    if negb (defined _WIN32)
    then Z.lor capabilities CAPABILITY_UNIX_DATAGRAMS
    else capabilities in
  let capabilities :=
    if negb (defined _WIN32)
    then Z.lor capabilities CAPABILITY_NATIVE_SOCKETPAIR
    else capabilities in
  capabilities.

Definition Java_org_newsclub_net_unix_NativeUnixSocket_capabilities : JNI Z :=
  let capabilities := 0 in
  u <- supportsUNIX ;;
  let capabilities :=
    if (u : bool) then unix_branch capabilities else capabilities in
  r <- supportsCastAsRedirect ;;
  let capabilities :=
    if (r : bool) then Z.lor capabilities CAPABILITY_FD_AS_REDIRECT
    else capabilities in
  t <- supportsTIPC ;;
  let capabilities :=
    if (t : bool) then Z.lor capabilities CAPABILITY_TIPC
    else capabilities in
  ret capabilities.

End Build.

(** A flag is set in a mask: [(mask & flag) != 0]. *)
Definition is_set (mask flag : Z) : bool := negb (Z.land mask flag =? 0).

(** ** socket.c *)

(** The socket-kind tags of the generated header
    [org_newsclub_net_unix_NativeUnixSocket.h] and the constants of the
    platform's socket headers.  Both lie outside the two source files, so
    their values are parameters of the development. *)
Class Constants : Type := mkConstants {
  org_newsclub_net_unix_NativeUnixSocket_SOCK_STREAM : Z;
  org_newsclub_net_unix_NativeUnixSocket_SOCK_DGRAM : Z;
  org_newsclub_net_unix_NativeUnixSocket_SOCK_SEQPACKET : Z;
  SOCK_STREAM : Z;
  SOCK_DGRAM : Z;
  SOCK_SEQPACKET : Z;
  PF_UNIX : Z
}.

Section Socket.

Context {K : Constants}.

(** The [switch]: the case labels are tried in order (C requires them to be
    pairwise distinct, so the order is immaterial in a build that
    compiles). *)
Definition sockTypeToNative (type : Z) : JNI Z :=
  if type =? org_newsclub_net_unix_NativeUnixSocket_SOCK_STREAM then
    ret SOCK_STREAM
  else if type =? org_newsclub_net_unix_NativeUnixSocket_SOCK_DGRAM then
    ret SOCK_DGRAM
  else if type =? org_newsclub_net_unix_NativeUnixSocket_SOCK_SEQPACKET then
    ret SOCK_SEQPACKET
  else
    (_throwException kExceptionSocketException "Illegal type" ;;;
     ret (-1)).

Definition Java_org_newsclub_net_unix_NativeUnixSocket_createSocket
  (fd : jobject) (type : Z) : JNI unit :=
  handle <- _getFD fd ;;
  if handle >? 0 then
    (* already initialized *)
    _throwException kExceptionSocketException "Already created"
  else
    type <- sockTypeToNative type ;;
    if type =? -1 then
      ret tt
    else
      handle <- socket PF_UNIX type 0 ;;
      if handle <=? 0 then
        (errnum <- socket_errno ;;
         _throwErrnumException errnum fd)
      else
        _initFD fd handle.

(** The valid socket kinds {Stream, Datagram, SequencedPacket}. *)
Definition valid_kind (type : Z) : Prop :=
  type = org_newsclub_net_unix_NativeUnixSocket_SOCK_STREAM \/
  type = org_newsclub_net_unix_NativeUnixSocket_SOCK_DGRAM \/
  type = org_newsclub_net_unix_NativeUnixSocket_SOCK_SEQPACKET.

(** No native socket-kind constant collides with the [-1] that
    [sockTypeToNative] returns on failure. *)
Definition native_kinds_not_sentinel : Prop :=
  SOCK_STREAM <> -1 /\ SOCK_DGRAM <> -1 /\ SOCK_SEQPACKET <> -1.

(** What the operating system answers to the next call made in [w]. *)
Definition next_os_answer (w : World) : Z * Z :=
  w_os w (List.length (w_calls w)).

(** The two outcomes of a creation call that started in [w] and ended in
    [w']: the handle is bound, or an OS failure is pending. *)
Definition bound_after (w' : World) (fd : jobject) : Prop :=
  w_pending w' = None /\ 0 < w_fd w' fd.

Definition os_error_after (w w' : World) (fd : jobject) : Prop :=
  w_pending w' = Some (ThrownErrnum (w_errno w') fd) /\
  w_fd w' fd = w_fd w fd /\
  w_fd w' fd <= 0.

End Socket.

(** ** The entry points as a process sees them *)

Inductive Call : Type :=
  | call_init_capabilities
  | call_destroy_capabilities
  | call_capabilities
  | call_createSocket (fd : jobject) (type : Z).

Section Process.

Context {K : Constants}.
Variable defined : Macro -> bool.

Definition run_call (c : Call) : JNI unit :=
  match c with
  | call_init_capabilities => init_capabilities
  | call_destroy_capabilities => destroy_capabilities
  | call_capabilities =>
      (Java_org_newsclub_net_unix_NativeUnixSocket_capabilities defined ;;;
       ret tt)
  | call_createSocket fd type =>
      Java_org_newsclub_net_unix_NativeUnixSocket_createSocket fd type
  end.

Fixpoint run_calls (cs : list Call) : JNI unit :=
  match cs with
  | [] => ret tt
  | c :: cs' => (run_call c ;;; run_calls cs')
  end.

End Process.

(** ** Concrete builds and worlds *)

(** A Linux build: [SO_PEERCRED], ancillary messages, abstract namespace. *)
Definition linux_build (m : Macro) : bool :=
  match m with
  | SO_PEERCRED | junixsocket_have_ancillary | __linux__ => true
  | _ => false
  end.

(** An IBM i build: [SO_PEERID] is advertised, [_OS400] is defined. *)
Definition os400_build (m : Macro) : bool :=
  match m with
  | SO_PEERID | _OS400 | junixsocket_have_ancillary => true
  | _ => false
  end.

(** The tags of [NativeUnixSocket] and the Linux socket constants. *)
Definition linux_constants : Constants :=
  mkConstants 1 2 5 1 2 5 1.

(** A world in which every descriptor object holds [v], nothing is pending,
    and every OS call answers [answer]. *)
Definition world_with (v : Z) (answer : Z * Z) (p : Probes) : World :=
  mkWorld (fun _ => v) None 0 [] (fun _ => answer) p.

Definition all_probes : Probes := mkProbes true true true.
Definition no_unix_probes : Probes := mkProbes false true true.

(** The ENFILE error code of Linux, used in examples. *)
Definition ENFILE : Z := 23.

(** Fresh handles, an OS that hands out descriptor 3. *)
Definition unset_world : World := world_with (-1) (3, 0) all_probes.

(** Handles that already hold descriptor 3. *)
Definition bound_world : World := world_with 3 (4, 0) all_probes.

(** Fresh handles, an OS that answers descriptor 0 and leaves [ENFILE]. *)
Definition descriptor_zero_world : World :=
  world_with (-1) (0, ENFILE) all_probes.

(** Fresh handles on a platform whose UNIX-domain probe failed. *)
Definition no_unix_world : World := world_with (-1) (3, 0) no_unix_probes.

(** The two entry points as built for Linux. *)
Definition linux_capabilities : JNI Z :=
  Java_org_newsclub_net_unix_NativeUnixSocket_capabilities linux_build.

Definition linux_createSocket (fd : jobject) (type : Z) : JNI unit :=
  @Java_org_newsclub_net_unix_NativeUnixSocket_createSocket
    linux_constants fd type.

(** ** Further vocabulary for the properties *)

Section Vocabulary.

Context {K : Constants}.

(** The three kind tags are pairwise distinct, as the case labels of a
    [switch] must be for the file to compile. *)
Definition distinct_kind_tags : Prop :=
  org_newsclub_net_unix_NativeUnixSocket_SOCK_STREAM
  <> org_newsclub_net_unix_NativeUnixSocket_SOCK_DGRAM /\
  org_newsclub_net_unix_NativeUnixSocket_SOCK_STREAM
  <> org_newsclub_net_unix_NativeUnixSocket_SOCK_SEQPACKET /\
  org_newsclub_net_unix_NativeUnixSocket_SOCK_DGRAM
  <> org_newsclub_net_unix_NativeUnixSocket_SOCK_SEQPACKET.

(** One of the three native socket kinds. *)
Definition native_kind (n : Z) : Prop :=
  n = SOCK_STREAM \/ n = SOCK_DGRAM \/ n = SOCK_SEQPACKET.

(** An OS call of the shape [socket(PF_UNIX, kind, 0)]. *)
Definition unix_socket_call (c : Syscall) : Prop :=
  exists native : Z, native_kind native /\ c = sys_socket PF_UNIX native 0.

(** The exceptions [createSocket] can leave pending for handle [fd] when
    the error code is [errnum]. *)
Definition createSocket_throwable (errnum : Z) (fd : jobject) (t : Throwable)
  : Prop :=
  t = Thrown kExceptionSocketException "Already created" \/
  t = Thrown kExceptionSocketException "Illegal type" \/
  t = ThrownErrnum errnum fd.

End Vocabulary.

(** How many of the calls are socket creations. *)
Fixpoint createSocket_count (cs : list Call) : nat :=
  match cs with
  | [] => O
  | call_createSocket _ _ :: cs' => S (createSocket_count cs')
  | _ :: cs' => createSocket_count cs'
  end.

(** Fresh handles, an OS that refuses the first socket with [ENFILE] and
    hands out descriptor 3 afterwards. *)
Definition retry_world : World :=
  mkWorld (fun _ => -1) None 0 []
          (fun n => match n with O => (-1, ENFILE) | S _ => (3, 0) end)
          all_probes.

(** A Windows build: the peer-PID ioctl, no ancillary messages. *)
Definition windows_build (m : Macro) : bool :=
  match m with
  | SIO_AF_UNIX_GETPEERPID | _WIN32 => true
  | _ => false
  end.

(** * Properties *)

(** ** The capability bitmask *)

Ltac cap_unfold :=
  cbv beta iota zeta delta
    [result world_after fst snd bind ret unix_branch
     Java_org_newsclub_net_unix_NativeUnixSocket_capabilities
     supportsUNIX supportsCastAsRedirect supportsTIPC].

(** Split on the three probes and on the five build conditions the query
    tests; every case leaves a closed mask. *)
Ltac cap_cases defined w :=
  cap_unfold;
  destruct (probe_unix (w_probes w)),
           (probe_cast_as_redirect (w_probes w)),
           (probe_tipc (w_probes w)),
           (has_peer_credential_mechanism defined),
           (defined _OS400),
           (defined junixsocket_have_ancillary),
           (defined __linux__),
           (defined _WIN32).

Lemma testbit_above_bound (a n m : Z) :
  0 <= a < 2 ^ n -> 0 <= n <= m -> Z.testbit a m = false.
Proof.
  intros [Ha Hlt] Hnm.
  assert (a = 0 \/ 0 < a) as [-> | Hpos] by lia.
  - apply Z.bits_0.
  - apply Z.bits_above_log2; [lia |].
    apply Z.log2_lt_pow2 in Hlt; lia.
Qed.

(** The query reads the world and leaves it as it found it. *)
Lemma capabilities_pure (defined : Macro -> bool) (w : World) :
  world_after (Java_org_newsclub_net_unix_NativeUnixSocket_capabilities defined) w
  = w.
Proof. reflexivity. Qed.

(** The mask is a function of the build and of the probe flags alone. *)
Lemma capabilities_depends_on_probes (defined : Macro -> bool) (w1 w2 : World) :
  w_probes w1 = w_probes w2 ->
  result (Java_org_newsclub_net_unix_NativeUnixSocket_capabilities defined) w1
  = result (Java_org_newsclub_net_unix_NativeUnixSocket_capabilities defined) w2.
Proof. cap_unfold. intros ->. reflexivity. Qed.

Section CapabilityMask.

Variable defined : Macro -> bool.

Local Abbreviation capabilities :=
  (Java_org_newsclub_net_unix_NativeUnixSocket_capabilities defined).

(** C1. In every mask the query returns, when the UnixDomainSockets flag is
    clear, the PeerCredentials, AncillaryMessages, FileDescriptorPassing,
    AbstractNamespace, UnixDatagrams and NativeSocketPair flags are clear
    too: [mask & PREREQUISITE == 0] implies [mask & DEPENDENT == 0]. *)
Theorem capabilities_prerequisite (w : World) :
  Z.land (result capabilities w) CAPABILITY_UNIX_DOMAIN = 0 ->
  Z.land (result capabilities w) CAPABILITY_PEER_CREDENTIALS = 0 /\
  Z.land (result capabilities w) CAPABILITY_ANCILLARY_MESSAGES = 0 /\
  Z.land (result capabilities w) CAPABILITY_FILE_DESCRIPTORS = 0 /\
  Z.land (result capabilities w) CAPABILITY_ABSTRACT_NAMESPACE = 0 /\
  Z.land (result capabilities w) CAPABILITY_UNIX_DATAGRAMS = 0 /\
  Z.land (result capabilities w) CAPABILITY_NATIVE_SOCKETPAIR = 0.
Proof.
  cap_cases defined w; intros H;
    solve [ discriminate H | repeat split; reflexivity ].
Qed.

(** C6. The PeerCredentials flag is set exactly when the UnixDomainSockets
    flag is set, the build saw a peer-credential retrieval mechanism, and
    the build is not the excluded one ([_OS400]); on the excluded build the
    flag stays clear although the symbol is advertised. *)
Theorem capabilities_peer_credentials (w : World) :
  is_set (result capabilities w) CAPABILITY_PEER_CREDENTIALS
  = is_set (result capabilities w) CAPABILITY_UNIX_DOMAIN
    && has_peer_credential_mechanism defined
    && negb (defined _OS400).
Proof.
  cap_cases defined w; reflexivity.
Qed.

(** C7. In every mask the query returns, the FileDescriptorPassing flag is
    set if and only if the AncillaryMessages flag is set. *)
Theorem capabilities_fd_passing_iff_ancillary (w : World) :
  is_set (result capabilities w) CAPABILITY_FILE_DESCRIPTORS
  = is_set (result capabilities w) CAPABILITY_ANCILLARY_MESSAGES.
Proof.
  cap_cases defined w; reflexivity.
Qed.

(** C10. Every mask the query returns lies in [0, 512): only the bit
    positions 0 to 8 are used and every higher bit is zero. *)
Theorem capabilities_range (w : World) :
  0 <= result capabilities w < 512 /\
  forall k : nat, Z.testbit (result capabilities w) (9 + Z.of_nat k) = false.
Proof.
  assert (0 <= result capabilities w < 2 ^ 9) as Hrange.
  { cap_cases defined w; split; (discriminate || reflexivity). }
  split.
  - exact Hrange.
  - intros k. apply (testbit_above_bound _ 9); lia.
Qed.

End CapabilityMask.

(** ** Socket creation *)

Section SocketCreation.

Context {K : Constants}.

Local Abbreviation createSocket :=
  Java_org_newsclub_net_unix_NativeUnixSocket_createSocket.

Ltac sock_unfold :=
  cbv beta iota zeta delta
    [result world_after fst snd bind ret
     Java_org_newsclub_net_unix_NativeUnixSocket_createSocket
     sockTypeToNative _getFD _initFD _throwException _throwErrnumException
     socket socket_errno next_os_answer].

(** One step of case analysis along the control flow of the call: on the
    next test, or on the answer of the operating system. *)
Ltac sock_case :=
  match goal with
  | |- context [if ?b then _ else _] => destruct b eqn:?; simpl
  | |- context [let (_, _) := w_os ?w ?n in _] =>
      destruct (w_os w n) as [? ?]; simpl
  end.

(** The type mapper on a valid kind: a native constant, and no effect. *)
Lemma sockTypeToNative_valid (type : Z) (w : World) :
  valid_kind type ->
  exists native,
    sockTypeToNative type w = (native, w) /\
    (native = SOCK_STREAM \/ native = SOCK_DGRAM \/ native = SOCK_SEQPACKET).
Proof.
  intros Hvalid. unfold sockTypeToNative.
  destruct (Z.eqb_spec type org_newsclub_net_unix_NativeUnixSocket_SOCK_STREAM).
  { exists SOCK_STREAM; auto. }
  destruct (Z.eqb_spec type org_newsclub_net_unix_NativeUnixSocket_SOCK_DGRAM).
  { exists SOCK_DGRAM; auto. }
  destruct (Z.eqb_spec type org_newsclub_net_unix_NativeUnixSocket_SOCK_SEQPACKET).
  { exists SOCK_SEQPACKET; auto. }
  destruct Hvalid as [? | [? | ?]]; contradiction.
Qed.

(** The type mapper on any other kind: the sentinel, and "Illegal type". *)
Lemma sockTypeToNative_invalid (type : Z) (w : World) :
  ~ valid_kind type ->
  sockTypeToNative type w
  = (-1, set_pending w (Thrown kExceptionSocketException "Illegal type")).
Proof.
  intros Hinvalid. unfold sockTypeToNative, valid_kind in *.
  destruct (Z.eqb_spec type org_newsclub_net_unix_NativeUnixSocket_SOCK_STREAM);
    [tauto |].
  destruct (Z.eqb_spec type org_newsclub_net_unix_NativeUnixSocket_SOCK_DGRAM);
    [tauto |].
  destruct (Z.eqb_spec type org_newsclub_net_unix_NativeUnixSocket_SOCK_SEQPACKET);
    [tauto |].
  reflexivity.
Qed.

(** The guard: on a bound handle nothing but the throw happens. *)
Lemma createSocket_on_bound (w : World) (fd : jobject) (type : Z) :
  0 < w_fd w fd ->
  createSocket fd type w
  = (tt, set_pending w (Thrown kExceptionSocketException "Already created")).
Proof.
  intros Hbound.
  unfold Java_org_newsclub_net_unix_NativeUnixSocket_createSocket, bind, _getFD.
  destruct (Z.gtb_spec (w_fd w fd) 0); [reflexivity | lia].
Qed.

(** An invalid kind on an unset handle: the mapper's throw, and a return. *)
Lemma createSocket_on_invalid (w : World) (fd : jobject) (type : Z) :
  w_fd w fd <= 0 ->
  ~ valid_kind type ->
  createSocket fd type w
  = (tt, set_pending w (Thrown kExceptionSocketException "Illegal type")).
Proof.
  intros Hunset Hinvalid.
  unfold Java_org_newsclub_net_unix_NativeUnixSocket_createSocket, bind, _getFD.
  destruct (Z.gtb_spec (w_fd w fd) 0); [lia |].
  rewrite (sockTypeToNative_invalid type w Hinvalid).
  reflexivity.
Qed.

(** A valid kind on an unset handle: one [socket] call, whose answer
    decides between the throw and the binding. *)
Lemma createSocket_on_valid (w : World) (fd : jobject) (type : Z) :
  native_kinds_not_sentinel ->
  w_fd w fd <= 0 ->
  valid_kind type ->
  exists native,
    (native = SOCK_STREAM \/ native = SOCK_DGRAM \/ native = SOCK_SEQPACKET) /\
    createSocket fd type w
    = (tt,
       let w1 := after_syscall w (sys_socket PF_UNIX native 0)
                               (snd (next_os_answer w)) in
       if fst (next_os_answer w) <=? 0
       then set_pending w1 (ThrownErrnum (snd (next_os_answer w)) fd)
       else set_fd w1 fd (fst (next_os_answer w))).
Proof.
  intros (Hs & Hd & Hq) Hunset Hvalid.
  destruct (sockTypeToNative_valid type w Hvalid) as (native & Hmap & Hnative).
  exists native. split; [exact Hnative |].
  unfold Java_org_newsclub_net_unix_NativeUnixSocket_createSocket, bind, _getFD.
  destruct (Z.gtb_spec (w_fd w fd) 0); [lia |].
  rewrite Hmap.
  destruct (Z.eqb_spec native (-1)) as [Heq | _].
  { destruct Hnative as [? | [? | ?]]; congruence. }
  unfold socket, next_os_answer.
  destruct (w_os w (List.length (w_calls w))) as [r e]. simpl.
  destruct (r <=? 0); reflexivity.
Qed.

(** Whatever the call does, a handle either keeps its value or receives a
    positive one: zero and negative values are never bound. *)
Lemma createSocket_binds_positive_only
  (w : World) (fd : jobject) (type : Z) (o : jobject) :
  w_fd (world_after (createSocket fd type) w) o = w_fd w o \/
  0 < w_fd (world_after (createSocket fd type) w) o.
Proof.
  sock_unfold.
  repeat sock_case; try (left; reflexivity).
  all: right;
    match goal with
    | H : (_ <=? 0) = false |- _ => apply Z.leb_gt in H; exact H
    end.
Qed.

(** No path of the call touches the probe flags. *)
Lemma createSocket_keeps_probes (w : World) (fd : jobject) (type : Z) :
  w_probes (world_after (createSocket fd type) w) = w_probes w.
Proof.
  sock_unfold.
  repeat sock_case; reflexivity.
Qed.

(** C2. On an unset handle (native value at most 0) and a valid kind,
    exactly one of two outcomes occurs: the call succeeds and the handle is
    bound to the value the OS returned, which is greater than 0; or an OS
    error carrying the OS error code and the handle is pending, and the
    handle is as unset as before.  (A native method is entered with no
    exception pending; the native kind constants are not [-1].) *)
Theorem createSocket_creates_or_os_error
  (w : World) (fd : jobject) (type : Z) :
  native_kinds_not_sentinel ->
  w_pending w = None ->
  w_fd w fd <= 0 ->
  valid_kind type ->
  let w' := world_after (createSocket fd type) w in
  (bound_after w' fd /\ ~ os_error_after w w' fd /\
   w_fd w' fd = fst (next_os_answer w))
  \/
  (os_error_after w w' fd /\ ~ bound_after w' fd /\
   w_errno w' = snd (next_os_answer w)).
Proof.
  intros Hnative Hclean Hunset Hvalid w'.
  destruct (createSocket_on_valid w fd type Hnative Hunset Hvalid)
    as (native & _ & Hrun).
  unfold bound_after, os_error_after.
  subst w'. unfold world_after. rewrite Hrun. cbn [snd].
  destruct (Z.leb_spec (fst (next_os_answer w)) 0) as [Hfail | Hok].
  - right. simpl. repeat split; try assumption; try reflexivity.
    intros [Hnone _]. discriminate Hnone.
  - left. simpl. rewrite Nat.eqb_refl. repeat split; try assumption.
    intros [Hsome _]. congruence.
Qed.

(** C3. On a handle that is already bound (native value greater than 0),
    whatever kind is requested, the call throws the socket exception
    "Already created" and leaves the native value as it was; the OS is not
    called. *)
Theorem createSocket_already_created
  (w : World) (fd : jobject) (type : Z) :
  0 < w_fd w fd ->
  let w' := world_after (createSocket fd type) w in
  w_pending w' = Some (Thrown kExceptionSocketException "Already created") /\
  w_fd w' fd = w_fd w fd /\
  w_calls w' = w_calls w.
Proof.
  intros Hbound w'. subst w'. unfold world_after.
  rewrite (createSocket_on_bound w fd type Hbound).
  repeat split.
Qed.

(** C4. On an unset handle and a kind outside {Stream, Datagram,
    SequencedPacket}, the type mapper returns the sentinel [-1], the call
    throws the socket exception "Illegal type", no OS socket creation is
    attempted, and the handle remains unset. *)
Theorem createSocket_illegal_type
  (w : World) (fd : jobject) (type : Z) :
  w_fd w fd <= 0 ->
  ~ valid_kind type ->
  let w' := world_after (createSocket fd type) w in
  result (sockTypeToNative type) w = -1 /\
  w_pending w' = Some (Thrown kExceptionSocketException "Illegal type") /\
  w_calls w' = w_calls w /\
  w_fd w' fd = w_fd w fd /\
  w_fd w' fd <= 0.
Proof.
  intros Hunset Hinvalid w'. subst w'. unfold world_after, result.
  rewrite (sockTypeToNative_invalid type w Hinvalid).
  rewrite (createSocket_on_invalid w fd type Hunset Hinvalid).
  repeat split. exact Hunset.
Qed.

(** C5, as the code has it.  When 7 is not one of the three kind tags, a
    call requesting kind 7 fails on every handle and leaves the handle
    unchanged; the exception is "Illegal type" on an unset handle and
    "Already created" on a bound one, because the guard on the handle runs
    before the kind is looked at. *)
Theorem createSocket_kind_7 (w : World) (fd : jobject) :
  ~ valid_kind 7 ->
  let w' := world_after (createSocket fd 7) w in
  w_fd w' fd = w_fd w fd /\
  w_pending w'
  = Some (Thrown kExceptionSocketException
            (if 0 <? w_fd w fd then "Already created" else "Illegal type")).
Proof.
  intros Hundefined w'. subst w'. unfold world_after.
  destruct (Z.ltb_spec 0 (w_fd w fd)) as [Hbound | Hunset].
  - rewrite (createSocket_on_bound w fd 7 Hbound). split; reflexivity.
  - rewrite (createSocket_on_invalid w fd 7 Hunset Hundefined).
    split; reflexivity.
Qed.

(** C9. On an unset handle and a valid kind, when the OS socket call
    returns the descriptor value 0, the call throws the OS error built from
    the current OS error code, and no handle changes.  The value 0 is never
    bound by a creation call: a handle that holds 0 afterwards held 0
    before. *)
Theorem createSocket_descriptor_zero
  (w : World) (fd : jobject) (type : Z) :
  native_kinds_not_sentinel ->
  w_fd w fd <= 0 ->
  valid_kind type ->
  fst (next_os_answer w) = 0 ->
  let w' := world_after (createSocket fd type) w in
  w_pending w' = Some (ThrownErrnum (w_errno w') fd) /\
  w_errno w' = snd (next_os_answer w) /\
  w_fd w' fd = w_fd w fd /\
  (forall o : jobject, w_fd w' o = w_fd w o) /\
  (forall (w0 : World) (fd0 : jobject) (type0 : Z) (o : jobject),
     w_fd (world_after (createSocket fd0 type0) w0) o = 0 -> w_fd w0 o = 0).
Proof.
  intros Hnative Hunset Hvalid Hzero w'.
  destruct (createSocket_on_valid w fd type Hnative Hunset Hvalid)
    as (native & _ & Hrun).
  subst w'. unfold world_after at 1 2 3 4 5. rewrite Hrun, Hzero. simpl.
  repeat split.
  intros w0 fd0 type0 o Hafter.
  destruct (createSocket_binds_positive_only w0 fd0 type0 o) as [Hkept | Hpos].
  - rewrite <- Hkept. exact Hafter.
  - rewrite Hafter in Hpos. discriminate Hpos.
Qed.

End SocketCreation.

(** ** Stability of the capability mask *)

Section Stability.

Context {K : Constants}.
Variable defined : Macro -> bool.

Local Abbreviation capabilities :=
  (Java_org_newsclub_net_unix_NativeUnixSocket_capabilities defined).

Lemma run_call_keeps_probes (c : Call) (w : World) :
  w_probes (world_after (run_call defined c) w) = w_probes w.
Proof.
  destruct c as [ | | | fd type]; try reflexivity.
  apply createSocket_keeps_probes.
Qed.

Lemma world_after_run_calls_cons (c : Call) (cs : list Call) (w : World) :
  world_after (run_calls defined (c :: cs)) w
  = world_after (run_calls defined cs) (world_after (run_call defined c) w).
Proof.
  unfold world_after. simpl. unfold bind.
  destruct (run_call defined c w) as [u w1]. reflexivity.
Qed.

Lemma run_calls_keeps_probes (cs : list Call) (w : World) :
  w_probes (world_after (run_calls defined cs) w) = w_probes w.
Proof.
  revert w. induction cs as [ | c cs IH]; intros w.
  - reflexivity.
  - rewrite world_after_run_calls_cons, IH.
    apply run_call_keeps_probes.
Qed.

(** C8. Within one process run, two invocations of the capability query
    return the same mask, whatever calls of this bridge (further queries,
    socket creations with any outcome, the capability set-up and tear-down
    hooks) the process makes in between. *)
Theorem capabilities_stable (w : World) (cs : list Call) :
  result capabilities
    (world_after (run_calls defined cs) (world_after capabilities w))
  = result capabilities w.
Proof.
  apply capabilities_depends_on_probes.
  rewrite run_calls_keeps_probes, capabilities_pure.
  reflexivity.
Qed.

End Stability.

(** ** The properties at concrete builds and worlds *)

Example linux_mask : result linux_capabilities unset_world = 511.
Proof. reflexivity. Qed.

Example os400_mask :
  result (Java_org_newsclub_net_unix_NativeUnixSocket_capabilities os400_build)
         unset_world = 502.
Proof. reflexivity. Qed.

Example no_unix_mask : result linux_capabilities no_unix_world = 192.
Proof. reflexivity. Qed.

Example linux_stream_created :
  w_fd (world_after (linux_createSocket 0%nat 1) unset_world) 0%nat = 3 /\
  w_calls (world_after (linux_createSocket 0%nat 1) unset_world)
  = [sys_socket 1 1 0].
Proof. split; reflexivity. Qed.

(** C1 on a Linux build whose UNIX-domain probe failed. *)
Lemma capabilities_prerequisite_witness :
  Z.land (result linux_capabilities no_unix_world) CAPABILITY_UNIX_DOMAIN = 0 /\
  Z.land (result linux_capabilities no_unix_world) CAPABILITY_PEER_CREDENTIALS = 0 /\
  Z.land (result linux_capabilities no_unix_world) CAPABILITY_ANCILLARY_MESSAGES = 0 /\
  Z.land (result linux_capabilities no_unix_world) CAPABILITY_FILE_DESCRIPTORS = 0 /\
  Z.land (result linux_capabilities no_unix_world) CAPABILITY_ABSTRACT_NAMESPACE = 0 /\
  Z.land (result linux_capabilities no_unix_world) CAPABILITY_UNIX_DATAGRAMS = 0 /\
  Z.land (result linux_capabilities no_unix_world) CAPABILITY_NATIVE_SOCKETPAIR = 0.
Proof.
  split.
  - reflexivity.
  - apply (capabilities_prerequisite linux_build no_unix_world).
    reflexivity.
Defined.

Lemma linux_native_kinds_not_sentinel :
  @native_kinds_not_sentinel linux_constants.
Proof. unfold native_kinds_not_sentinel; simpl; lia. Defined.

Lemma linux_kind_7_undefined : ~ @valid_kind linux_constants 7.
Proof. unfold valid_kind; simpl; lia. Defined.

(** C2 on Linux: a stream socket on a fresh handle, the OS answering 3. *)
Lemma createSocket_creates_or_os_error_witness :
  (w_pending unset_world = None /\
   w_fd unset_world 0%nat <= 0 /\
   @valid_kind linux_constants 1) /\
  ((bound_after (world_after (linux_createSocket 0%nat 1) unset_world) 0%nat /\
    ~ os_error_after unset_world
        (world_after (linux_createSocket 0%nat 1) unset_world) 0%nat /\
    w_fd (world_after (linux_createSocket 0%nat 1) unset_world) 0%nat
    = fst (next_os_answer unset_world))
   \/
   (os_error_after unset_world
      (world_after (linux_createSocket 0%nat 1) unset_world) 0%nat /\
    ~ bound_after (world_after (linux_createSocket 0%nat 1) unset_world) 0%nat /\
    w_errno (world_after (linux_createSocket 0%nat 1) unset_world)
    = snd (next_os_answer unset_world))).
Proof.
  assert (w_pending unset_world = None) as Hclean by reflexivity.
  assert (w_fd unset_world 0%nat <= 0) as Hunset by (simpl; lia).
  assert (@valid_kind linux_constants 1) as Hvalid by (left; reflexivity).
  split.
  - repeat split; assumption.
  - exact (@createSocket_creates_or_os_error linux_constants unset_world 0%nat 1
             linux_native_kinds_not_sentinel Hclean Hunset Hvalid).
Defined.

(** C3 on Linux: a second creation on a handle that holds descriptor 3. *)
Lemma createSocket_already_created_witness :
  0 < w_fd bound_world 0%nat /\
  w_pending (world_after (linux_createSocket 0%nat 2) bound_world)
  = Some (Thrown kExceptionSocketException "Already created") /\
  w_fd (world_after (linux_createSocket 0%nat 2) bound_world) 0%nat
  = w_fd bound_world 0%nat /\
  w_calls (world_after (linux_createSocket 0%nat 2) bound_world)
  = w_calls bound_world.
Proof.
  assert (0 < w_fd bound_world 0%nat) as Hbound by (simpl; lia).
  split.
  - exact Hbound.
  - exact (@createSocket_already_created linux_constants bound_world 0%nat 2
             Hbound).
Defined.

(** C4 on Linux: kind 3 is not a tag of [NativeUnixSocket]. *)
Lemma createSocket_illegal_type_witness :
  (w_fd unset_world 0%nat <= 0 /\ ~ @valid_kind linux_constants 3) /\
  result (@sockTypeToNative linux_constants 3) unset_world = -1 /\
  w_pending (world_after (linux_createSocket 0%nat 3) unset_world)
  = Some (Thrown kExceptionSocketException "Illegal type") /\
  w_calls (world_after (linux_createSocket 0%nat 3) unset_world)
  = w_calls unset_world /\
  w_fd (world_after (linux_createSocket 0%nat 3) unset_world) 0%nat
  = w_fd unset_world 0%nat /\
  w_fd (world_after (linux_createSocket 0%nat 3) unset_world) 0%nat <= 0.
Proof.
  assert (w_fd unset_world 0%nat <= 0) as Hunset by (simpl; lia).
  assert (~ @valid_kind linux_constants 3) as Hinvalid
    by (unfold valid_kind; simpl; lia).
  split.
  - split; assumption.
  - exact (@createSocket_illegal_type linux_constants unset_world 0%nat 3
             Hunset Hinvalid).
Defined.

(** C5 as stated fails on a bound handle: with the handle holding
    descriptor 3, requesting kind 7 (not a tag on Linux) throws
    "Already created", not "Illegal type". *)
Lemma createSocket_kind_7_on_bound_handle :
  ~ @valid_kind linux_constants 7 /\
  0 < w_fd bound_world 0%nat /\
  w_pending (world_after (linux_createSocket 0%nat 7) bound_world)
  = Some (Thrown kExceptionSocketException "Already created") /\
  w_pending (world_after (linux_createSocket 0%nat 7) bound_world)
  <> Some (Thrown kExceptionSocketException "Illegal type").
Proof.
  split; [exact linux_kind_7_undefined |].
  split; [reflexivity |].
  split; [reflexivity | discriminate].
Qed.

(** C5 as amended, on Linux, on the same bound handle. *)
Lemma createSocket_kind_7_witness :
  ~ @valid_kind linux_constants 7 /\
  w_fd (world_after (linux_createSocket 0%nat 7) bound_world) 0%nat
  = w_fd bound_world 0%nat /\
  w_pending (world_after (linux_createSocket 0%nat 7) bound_world)
  = Some (Thrown kExceptionSocketException
            (if 0 <? w_fd bound_world 0%nat
             then "Already created" else "Illegal type")).
Proof.
  split.
  - exact linux_kind_7_undefined.
  - exact (@createSocket_kind_7 linux_constants bound_world 0%nat
             linux_kind_7_undefined).
Defined.

(** C9 on Linux: the OS answers descriptor 0 and leaves [ENFILE] behind. *)
Lemma createSocket_descriptor_zero_witness :
  (w_fd descriptor_zero_world 0%nat <= 0 /\
   @valid_kind linux_constants 5 /\
   fst (next_os_answer descriptor_zero_world) = 0) /\
  w_pending (world_after (linux_createSocket 0%nat 5) descriptor_zero_world)
  = Some (ThrownErrnum
            (w_errno (world_after (linux_createSocket 0%nat 5)
                                  descriptor_zero_world)) 0%nat) /\
  w_errno (world_after (linux_createSocket 0%nat 5) descriptor_zero_world)
  = snd (next_os_answer descriptor_zero_world) /\
  w_fd (world_after (linux_createSocket 0%nat 5) descriptor_zero_world) 0%nat
  = w_fd descriptor_zero_world 0%nat /\
  (forall o : jobject,
     w_fd (world_after (linux_createSocket 0%nat 5) descriptor_zero_world) o
     = w_fd descriptor_zero_world o) /\
  (forall (w0 : World) (fd0 : jobject) (type0 : Z) (o : jobject),
     w_fd (world_after (linux_createSocket fd0 type0) w0) o = 0 ->
     w_fd w0 o = 0).
Proof.
  assert (w_fd descriptor_zero_world 0%nat <= 0) as Hunset by (simpl; lia).
  assert (@valid_kind linux_constants 5) as Hvalid
    by (right; right; reflexivity).
  assert (fst (next_os_answer descriptor_zero_world) = 0) as Hzero
    by reflexivity.
  split.
  - repeat split; assumption.
  - exact (@createSocket_descriptor_zero linux_constants descriptor_zero_world
             0%nat 5 linux_native_kinds_not_sentinel Hunset Hvalid Hzero).
Defined.

(** * Further properties of the two files *)

(** ** The rows of the capability mask *)

Section CapabilityRows.

Variable defined : Macro -> bool.

Local Abbreviation capabilities :=
  (Java_org_newsclub_net_unix_NativeUnixSocket_capabilities defined).

(** X1. The UnixDomainSockets, DescriptorAsRedirect and TIPC flags each mirror
    their own runtime probe: the last two are reported whether or not the
    UNIX-domain family is supported, and no build symbol affects any of the
    three. *)
Theorem capabilities_probe_flags (w : World) :
  is_set (result capabilities w) CAPABILITY_UNIX_DOMAIN
  = result supportsUNIX w /\
  is_set (result capabilities w) CAPABILITY_FD_AS_REDIRECT
  = result supportsCastAsRedirect w /\
  is_set (result capabilities w) CAPABILITY_TIPC
  = result supportsTIPC w.
Proof.
  cap_cases defined w; repeat split.
Qed.

(** X2. The build-gated rows: inside UNIX-domain support, AncillaryMessages
    follows [junixsocket_have_ancillary], AbstractNamespace follows
    [__linux__], and UnixDatagrams and NativeSocketPair are both reported
    exactly when [_WIN32] is not defined. *)
Theorem capabilities_build_flags (w : World) :
  is_set (result capabilities w) CAPABILITY_ANCILLARY_MESSAGES
  = result supportsUNIX w && defined junixsocket_have_ancillary /\
  is_set (result capabilities w) CAPABILITY_ABSTRACT_NAMESPACE
  = result supportsUNIX w && defined __linux__ /\
  is_set (result capabilities w) CAPABILITY_UNIX_DATAGRAMS
  = result supportsUNIX w && negb (defined _WIN32) /\
  is_set (result capabilities w) CAPABILITY_NATIVE_SOCKETPAIR
  = result supportsUNIX w && negb (defined _WIN32).
Proof.
  cap_cases defined w; repeat split.
Qed.

End CapabilityRows.

(** ** The type mapper *)

Section TypeMapper.

Context {K : Constants}.

Lemma sockTypeToNative_stream (w : World) :
  sockTypeToNative org_newsclub_net_unix_NativeUnixSocket_SOCK_STREAM w
  = (SOCK_STREAM, w).
Proof. unfold sockTypeToNative. rewrite Z.eqb_refl. reflexivity. Qed.

Lemma sockTypeToNative_dgram (w : World) :
  org_newsclub_net_unix_NativeUnixSocket_SOCK_STREAM
  <> org_newsclub_net_unix_NativeUnixSocket_SOCK_DGRAM ->
  sockTypeToNative org_newsclub_net_unix_NativeUnixSocket_SOCK_DGRAM w
  = (SOCK_DGRAM, w).
Proof.
  intros Hsd. unfold sockTypeToNative. rewrite Z.eqb_refl.
  destruct (Z.eqb_spec org_newsclub_net_unix_NativeUnixSocket_SOCK_DGRAM
              org_newsclub_net_unix_NativeUnixSocket_SOCK_STREAM);
    [congruence | reflexivity].
Qed.

Lemma sockTypeToNative_seqpacket (w : World) :
  org_newsclub_net_unix_NativeUnixSocket_SOCK_STREAM
  <> org_newsclub_net_unix_NativeUnixSocket_SOCK_SEQPACKET ->
  org_newsclub_net_unix_NativeUnixSocket_SOCK_DGRAM
  <> org_newsclub_net_unix_NativeUnixSocket_SOCK_SEQPACKET ->
  sockTypeToNative org_newsclub_net_unix_NativeUnixSocket_SOCK_SEQPACKET w
  = (SOCK_SEQPACKET, w).
Proof.
  intros Hsq Hdq. unfold sockTypeToNative. rewrite Z.eqb_refl.
  destruct (Z.eqb_spec org_newsclub_net_unix_NativeUnixSocket_SOCK_SEQPACKET
              org_newsclub_net_unix_NativeUnixSocket_SOCK_STREAM);
    [congruence |].
  destruct (Z.eqb_spec org_newsclub_net_unix_NativeUnixSocket_SOCK_SEQPACKET
              org_newsclub_net_unix_NativeUnixSocket_SOCK_DGRAM);
    [congruence | reflexivity].
Qed.

(** X3. With pairwise distinct tags, each tag is mapped to the native constant
    of the same name, and mapping a valid tag has no effect: nothing is
    thrown and nothing else changes. *)
Theorem sockTypeToNative_maps_kinds (w : World) :
  distinct_kind_tags ->
  sockTypeToNative org_newsclub_net_unix_NativeUnixSocket_SOCK_STREAM w
  = (SOCK_STREAM, w) /\
  sockTypeToNative org_newsclub_net_unix_NativeUnixSocket_SOCK_DGRAM w
  = (SOCK_DGRAM, w) /\
  sockTypeToNative org_newsclub_net_unix_NativeUnixSocket_SOCK_SEQPACKET w
  = (SOCK_SEQPACKET, w).
Proof.
  intros (Hsd & Hsq & Hdq).
  split; [apply sockTypeToNative_stream |].
  split; [apply sockTypeToNative_dgram; exact Hsd |].
  apply sockTypeToNative_seqpacket; assumption.
Qed.

(** X4. When no native kind constant is [-1], the value [-1] is returned
    exactly for the invalid kinds, and exactly then "Illegal type" is left
    pending; for a valid kind a native kind is returned and the world is
    untouched. *)
Theorem sockTypeToNative_sentinel_exact (type : Z) (w : World) :
  native_kinds_not_sentinel ->
  (valid_kind type /\
   native_kind (result (sockTypeToNative type) w) /\
   result (sockTypeToNative type) w <> -1 /\
   world_after (sockTypeToNative type) w = w)
  \/
  (~ valid_kind type /\
   result (sockTypeToNative type) w = -1 /\
   world_after (sockTypeToNative type) w
   = set_pending w (Thrown kExceptionSocketException "Illegal type")).
Proof.
  intros (Hs & Hd & Hq).
  assert (valid_kind type \/ ~ valid_kind type) as [Hvalid | Hinvalid].
  { unfold valid_kind. lia. }
  - left. split; [exact Hvalid |].
    destruct (sockTypeToNative_valid type w Hvalid) as (native & Hmap & Hnat).
    unfold result, world_after. rewrite Hmap. cbn [fst snd].
    split; [exact Hnat |]. split; [| reflexivity].
    destruct Hnat as [-> | [-> | ->]]; assumption.
  - right. split; [exact Hinvalid |].
    unfold result, world_after.
    rewrite (sockTypeToNative_invalid type w Hinvalid). split; reflexivity.
Qed.

End TypeMapper.

(** ** One creation call *)

Section OneCall.

Context {K : Constants}.

Local Abbreviation createSocket :=
  Java_org_newsclub_net_unix_NativeUnixSocket_createSocket.

Ltac flow_unfold :=
  cbv beta iota zeta delta
    [result world_after fst snd bind ret
     Java_org_newsclub_net_unix_NativeUnixSocket_createSocket
     sockTypeToNative _getFD _initFD _throwException _throwErrnumException
     socket socket_errno next_os_answer].

Ltac flow_case :=
  match goal with
  | |- context [if ?b then _ else _] => destruct b eqn:?; simpl
  | |- context [let (_, _) := w_os ?w ?n in _] =>
      destruct (w_os w n) as [? ?]; simpl
  end.

Lemma createSocket_other_handle
  (w : World) (fd : jobject) (type : Z) (o : jobject) :
  o <> fd ->
  w_fd (world_after (createSocket fd type) w) o = w_fd w o.
Proof.
  intros Hother. apply Nat.eqb_neq in Hother.
  flow_unfold. repeat flow_case; try discriminate Hother; reflexivity.
Qed.

Lemma createSocket_keeps_os (w : World) (fd : jobject) (type : Z) :
  w_os (world_after (createSocket fd type) w) = w_os w.
Proof. flow_unfold. repeat flow_case; reflexivity. Qed.

Lemma createSocket_calls_grow (w : World) (fd : jobject) (type : Z) :
  exists l : list Syscall,
    w_calls (world_after (createSocket fd type) w) = w_calls w ++ l /\
    (l = [] \/ exists c : Syscall, unix_socket_call c /\ l = [c]) /\
    (l = [] -> w_errno (world_after (createSocket fd type) w) = w_errno w).
Proof.
  flow_unfold.
  repeat flow_case;
    try (exists []; rewrite app_nil_r; repeat split; left; reflexivity);
    (eexists; split; [reflexivity |]; split; [| discriminate]);
    right; eexists; (split; [| reflexivity]);
    eexists; (split; [| reflexivity]); unfold native_kind; auto.
Qed.

(** X5. A creation call on one handle never changes another handle, and it
    never changes the answers the OS will give. *)
Theorem createSocket_frame (w : World) (fd : jobject) (type : Z) (o : jobject) :
  o <> fd ->
  w_fd (world_after (createSocket fd type) w) o = w_fd w o /\
  w_os (world_after (createSocket fd type) w) = w_os w.
Proof.
  intros Hother. split.
  - apply createSocket_other_handle. exact Hother.
  - apply createSocket_keeps_os.
Qed.

(** X6. A creation call makes at most one OS call, and that call is always
    [socket(PF_UNIX, kind, 0)] for a native kind; when it makes none, the
    OS error code is left as it was. *)
Theorem createSocket_os_calls (w : World) (fd : jobject) (type : Z) :
  (w_calls (world_after (createSocket fd type) w) = w_calls w /\
   w_errno (world_after (createSocket fd type) w) = w_errno w)
  \/
  (exists c : Syscall,
     unix_socket_call c /\
     w_calls (world_after (createSocket fd type) w) = w_calls w ++ [c]).
Proof.
  destruct (createSocket_calls_grow w fd type)
    as (l & Hcalls & [Hnone | (c & Hcall & Hone)] & Herrno).
  - left. split; [| exact (Herrno Hnone)].
    rewrite Hcalls, Hnone. apply app_nil_r.
  - right. exists c. split; [exact Hcall |]. rewrite Hcalls, Hone. reflexivity.
Qed.

(** X7. When no native kind constant is [-1], a creation call never returns
    silently: either it binds the positive descriptor the OS returned into
    a handle that was unset, throwing nothing, or it changes no handle and
    leaves one of its three exceptions pending. *)
Theorem createSocket_binds_or_throws (w : World) (fd : jobject) (type : Z) :
  native_kinds_not_sentinel ->
  (w_fd w fd <= 0 /\
   0 < w_fd (world_after (createSocket fd type) w) fd /\
   w_fd (world_after (createSocket fd type) w) fd = fst (next_os_answer w) /\
   w_pending (world_after (createSocket fd type) w) = w_pending w)
  \/
  ((forall o : jobject,
      w_fd (world_after (createSocket fd type) w) o = w_fd w o) /\
   exists t : Throwable,
     createSocket_throwable
       (w_errno (world_after (createSocket fd type) w)) fd t /\
     w_pending (world_after (createSocket fd type) w) = Some t).
Proof.
  intros Hnative. unfold createSocket_throwable.
  destruct (Z.lt_ge_cases 0 (w_fd w fd)) as [Hbound | Hunset].
  { right. unfold world_after.
    rewrite (createSocket_on_bound w fd type Hbound). simpl.
    split; [reflexivity |]. eexists; split; [| reflexivity]; auto. }
  assert (valid_kind type \/ ~ valid_kind type) as [Hvalid | Hinvalid].
  { unfold valid_kind. lia. }
  - destruct (createSocket_on_valid w fd type Hnative Hunset Hvalid)
      as (native & _ & Hrun).
    unfold world_after. rewrite Hrun. cbn [snd].
    destruct (Z.leb_spec (fst (next_os_answer w)) 0) as [Hfail | Hok].
    + right. simpl.
      split; [reflexivity |]. eexists; split; [| reflexivity]; auto.
    + left. simpl. rewrite Nat.eqb_refl. auto.
  - right. unfold world_after.
    rewrite (createSocket_on_invalid w fd type Hunset Hinvalid). simpl.
    split; [reflexivity |]. eexists; split; [| reflexivity]; auto.
Qed.

(** X8. With pairwise distinct tags and no native kind constant equal to [-1],
    a creation call on an unset handle asks the OS for the UNIX-domain
    socket of the requested kind, with protocol 0. *)
Theorem createSocket_requests_mapped_kind (w : World) (fd : jobject) :
  distinct_kind_tags ->
  native_kinds_not_sentinel ->
  w_fd w fd <= 0 ->
  w_calls (world_after
             (createSocket fd org_newsclub_net_unix_NativeUnixSocket_SOCK_STREAM)
             w)
  = w_calls w ++ [sys_socket PF_UNIX SOCK_STREAM 0] /\
  w_calls (world_after
             (createSocket fd org_newsclub_net_unix_NativeUnixSocket_SOCK_DGRAM)
             w)
  = w_calls w ++ [sys_socket PF_UNIX SOCK_DGRAM 0] /\
  w_calls (world_after
             (createSocket fd
                org_newsclub_net_unix_NativeUnixSocket_SOCK_SEQPACKET) w)
  = w_calls w ++ [sys_socket PF_UNIX SOCK_SEQPACKET 0].
Proof.
  intros (Hsd & Hsq & Hdq) (Hs & Hd & Hq) Hunset.
  pose proof (sockTypeToNative_stream w) as Ms.
  pose proof (sockTypeToNative_dgram w Hsd) as Md.
  pose proof (sockTypeToNative_seqpacket w Hsq Hdq) as Mq.
  unfold world_after,
    Java_org_newsclub_net_unix_NativeUnixSocket_createSocket, bind, _getFD.
  destruct (Z.gtb_spec (w_fd w fd) 0); [lia |].
  rewrite Ms, Md, Mq.
  destruct (Z.eqb_spec SOCK_STREAM (-1)); [contradiction |].
  destruct (Z.eqb_spec SOCK_DGRAM (-1)); [contradiction |].
  destruct (Z.eqb_spec SOCK_SEQPACKET (-1)); [contradiction |].
  unfold socket.
  destruct (w_os w (List.length (w_calls w))) as [r e]. simpl.
  destruct (r <=? 0); simpl; repeat split.
Qed.

End OneCall.

(** ** Creation calls in sequence *)

Section TwoCalls.

Context {K : Constants}.

Local Abbreviation createSocket :=
  Java_org_newsclub_net_unix_NativeUnixSocket_createSocket.

(** X9. Creating twice on the same handle: when the first call succeeds, the
    second one, whatever kind it asks for, throws "Already created", keeps
    the descriptor of the first call, and does not call the OS again. *)
Theorem createSocket_twice
  (w : World) (fd : jobject) (type1 type2 : Z) :
  native_kinds_not_sentinel ->
  w_fd w fd <= 0 ->
  valid_kind type1 ->
  0 < fst (next_os_answer w) ->
  let w1 := world_after (createSocket fd type1) w in
  let w2 := world_after (createSocket fd type2) w1 in
  w_fd w1 fd = fst (next_os_answer w) /\
  w_fd w2 fd = fst (next_os_answer w) /\
  w_pending w2 = Some (Thrown kExceptionSocketException "Already created") /\
  w_calls w2 = w_calls w1 /\
  List.length (w_calls w2) = S (List.length (w_calls w)).
Proof.
  intros Hnative Hunset Hvalid Hok w1 w2.
  destruct (createSocket_on_valid w fd type1 Hnative Hunset Hvalid)
    as (native & _ & Hrun).
  assert ((fst (next_os_answer w) <=? 0) = false) as Hleb
    by (apply Z.leb_gt; exact Hok).
  assert (w_fd w1 fd = fst (next_os_answer w)) as Hfd1.
  { subst w1. unfold world_after. rewrite Hrun, Hleb. simpl.
    rewrite Nat.eqb_refl. reflexivity. }
  assert (List.length (w_calls w1) = S (List.length (w_calls w))) as Hlen1.
  { subst w1. unfold world_after. rewrite Hrun, Hleb. simpl.
    rewrite length_app. simpl. lia. }
  assert (0 < w_fd w1 fd) as Hbound by (rewrite Hfd1; exact Hok).
  assert (world_after (createSocket fd type2) w1
          = set_pending w1
              (Thrown kExceptionSocketException "Already created")) as Hw2.
  { unfold world_after at 1.
    rewrite (createSocket_on_bound w1 fd type2 Hbound). reflexivity. }
  subst w2. rewrite Hw2. simpl.
  repeat split; assumption.
Qed.

(** X10. Creating again after an OS failure: the failed call leaves the handle
    unset, so a second call asks the OS again, and binds the handle when
    that second answer is positive. *)
Theorem createSocket_retry_after_os_error
  (w : World) (fd : jobject) (type1 type2 : Z) :
  native_kinds_not_sentinel ->
  w_fd w fd <= 0 ->
  valid_kind type1 ->
  valid_kind type2 ->
  fst (next_os_answer w) <= 0 ->
  0 < fst (w_os w (S (List.length (w_calls w)))) ->
  let w1 := world_after (createSocket fd type1) w in
  let w2 := world_after (createSocket fd type2) w1 in
  w_fd w1 fd = w_fd w fd /\
  w_fd w2 fd = fst (w_os w (S (List.length (w_calls w)))) /\
  List.length (w_calls w2) = S (S (List.length (w_calls w))).
Proof.
  intros Hnative Hunset Hvalid1 Hvalid2 Hfail Hok w1 w2.
  destruct (createSocket_on_valid w fd type1 Hnative Hunset Hvalid1)
    as (native1 & _ & Hrun1).
  assert ((fst (next_os_answer w) <=? 0) = true) as Hleb1
    by (apply Z.leb_le; exact Hfail).
  assert (w_fd w1 fd = w_fd w fd) as Hfd1.
  { subst w1. unfold world_after. rewrite Hrun1, Hleb1. reflexivity. }
  assert (List.length (w_calls w1) = S (List.length (w_calls w))) as Hlen1.
  { subst w1. unfold world_after. rewrite Hrun1, Hleb1. simpl.
    rewrite length_app. simpl. lia. }
  assert (w_os w1 = w_os w) as Hos1.
  { subst w1. unfold world_after. rewrite Hrun1, Hleb1. reflexivity. }
  assert (w_fd w1 fd <= 0) as Hunset1 by (rewrite Hfd1; exact Hunset).
  assert (next_os_answer w1 = w_os w (S (List.length (w_calls w)))) as Hnext.
  { unfold next_os_answer. rewrite Hos1, Hlen1. reflexivity. }
  destruct (createSocket_on_valid w1 fd type2 Hnative Hunset1 Hvalid2)
    as (native2 & _ & Hrun2).
  assert ((fst (next_os_answer w1) <=? 0) = false) as Hleb2
    by (apply Z.leb_gt; rewrite Hnext; exact Hok).
  split; [exact Hfd1 |].
  subst w2. unfold world_after at 1 2. rewrite Hrun2, Hleb2. simpl.
  rewrite Nat.eqb_refl, length_app, Hlen1, Hnext. simpl.
  split; [reflexivity | lia].
Qed.

End TwoCalls.

(** ** Any sequence of calls of the bridge *)

Section Runs.

Context {K : Constants}.
Variable defined : Macro -> bool.

Lemma run_call_keeps_bound (c : Call) (w : World) (fd : jobject) :
  0 < w_fd w fd ->
  w_fd (world_after (run_call defined c) w) fd = w_fd w fd.
Proof.
  intros Hbound. destruct c as [ | | | fd0 type]; try reflexivity.
  simpl. destruct (Nat.eq_dec fd fd0) as [<- | Hother].
  - unfold world_after. rewrite (createSocket_on_bound w fd type Hbound).
    reflexivity.
  - apply createSocket_other_handle. exact Hother.
Qed.

(** X11. A handle that is bound keeps its descriptor through every sequence of
    calls of the bridge: nothing here replaces or releases it. *)
Theorem run_calls_keep_bound_handle
  (cs : list Call) (w : World) (fd : jobject) :
  0 < w_fd w fd ->
  w_fd (world_after (run_calls defined cs) w) fd = w_fd w fd.
Proof.
  revert w. induction cs as [ | c cs IH]; intros w Hbound.
  - reflexivity.
  - rewrite world_after_run_calls_cons.
    pose proof (run_call_keeps_bound c w fd Hbound) as Hstep.
    rewrite IH; [exact Hstep | rewrite Hstep; exact Hbound].
Qed.

Lemma run_call_os_calls (c : Call) (w : World) :
  exists l : list Syscall,
    w_calls (world_after (run_call defined c) w) = w_calls w ++ l /\
    (List.length l <= createSocket_count [c])%nat /\
    Forall unix_socket_call l.
Proof.
  destruct c as [ | | | fd type];
    try (exists []; simpl; rewrite app_nil_r; repeat split;
         [lia | constructor]).
  simpl run_call. destruct (createSocket_calls_grow w fd type)
    as (l & Hcalls & [Hnone | (c & Hcall & Hone)] & _); exists l; subst l.
  - simpl. repeat split; [exact Hcalls | lia | constructor].
  - simpl. repeat split; [exact Hcalls | lia |].
    constructor; [exact Hcall | constructor].
Qed.

Lemma createSocket_count_cons (c : Call) (cs : list Call) :
  createSocket_count (c :: cs)
  = (createSocket_count [c] + createSocket_count cs)%nat.
Proof. destruct c; reflexivity. Qed.

(** X12. Over every sequence of calls, the log of OS calls only grows at its
    end, by at most one call per socket creation in the sequence, and each
    added call is [socket(PF_UNIX, kind, 0)] for a native kind. *)
Theorem run_calls_os_calls (cs : list Call) (w : World) :
  exists l : list Syscall,
    w_calls (world_after (run_calls defined cs) w) = w_calls w ++ l /\
    (List.length l <= createSocket_count cs)%nat /\
    Forall unix_socket_call l.
Proof.
  revert w. induction cs as [ | c cs IH]; intros w.
  - exists []. simpl. rewrite app_nil_r. repeat split; [lia | constructor].
  - rewrite world_after_run_calls_cons.
    destruct (run_call_os_calls c w) as (l1 & Hl1 & Hn1 & Hf1).
    destruct (IH (world_after (run_call defined c) w))
      as (l2 & Hl2 & Hn2 & Hf2).
    exists (l1 ++ l2). rewrite Hl2, Hl1, <- app_assoc.
    rewrite createSocket_count_cons, length_app.
    repeat split; [lia |].
    apply Forall_app. split; assumption.
Qed.

(** X13. Over every sequence of calls, each handle either still holds the value
    it started with or holds a positive descriptor: zero and negative
    values are never written into a handle. *)
Theorem run_calls_bind_positive_only
  (cs : list Call) (w : World) (o : jobject) :
  w_fd (world_after (run_calls defined cs) w) o = w_fd w o \/
  0 < w_fd (world_after (run_calls defined cs) w) o.
Proof.
  revert w. induction cs as [ | c cs IH]; intros w.
  - left. reflexivity.
  - rewrite world_after_run_calls_cons.
    destruct (IH (world_after (run_call defined c) w)) as [Hkept | Hpos];
      [| right; exact Hpos].
    rewrite Hkept.
    destruct c as [ | | | fd type]; try (left; reflexivity).
    apply createSocket_binds_positive_only.
Qed.

End Runs.

(** ** The further properties at concrete inputs *)

Lemma linux_distinct_kind_tags : @distinct_kind_tags linux_constants.
Proof. unfold distinct_kind_tags; simpl; lia. Defined.

Example windows_mask :
  result (Java_org_newsclub_net_unix_NativeUnixSocket_capabilities windows_build)
         unset_world = 449.
Proof. reflexivity. Qed.

Example linux_retry :
  w_fd (world_after (linux_createSocket 0%nat 1) retry_world) 0%nat = -1 /\
  w_fd (world_after (linux_createSocket 0%nat 1)
          (world_after (linux_createSocket 0%nat 1) retry_world)) 0%nat = 3.
Proof. split; reflexivity. Qed.

Lemma sockTypeToNative_maps_kinds_witness :
  @sockTypeToNative linux_constants 1 unset_world = (1, unset_world) /\
  @sockTypeToNative linux_constants 2 unset_world = (2, unset_world) /\
  @sockTypeToNative linux_constants 5 unset_world = (5, unset_world).
Proof.
  exact (@sockTypeToNative_maps_kinds linux_constants unset_world
           linux_distinct_kind_tags).
Defined.

Lemma sockTypeToNative_sentinel_exact_witness :
  (@valid_kind linux_constants 7 /\
   @native_kind linux_constants
     (result (@sockTypeToNative linux_constants 7) unset_world) /\
   result (@sockTypeToNative linux_constants 7) unset_world <> -1 /\
   world_after (@sockTypeToNative linux_constants 7) unset_world = unset_world)
  \/
  (~ @valid_kind linux_constants 7 /\
   result (@sockTypeToNative linux_constants 7) unset_world = -1 /\
   world_after (@sockTypeToNative linux_constants 7) unset_world
   = set_pending unset_world
       (Thrown kExceptionSocketException "Illegal type")).
Proof.
  exact (@sockTypeToNative_sentinel_exact linux_constants 7 unset_world
           linux_native_kinds_not_sentinel).
Defined.

Lemma createSocket_frame_witness :
  1%nat <> 0%nat /\
  w_fd (world_after (linux_createSocket 0%nat 1) unset_world) 1%nat
  = w_fd unset_world 1%nat /\
  w_os (world_after (linux_createSocket 0%nat 1) unset_world)
  = w_os unset_world.
Proof.
  assert (1%nat <> 0%nat) as Hother by discriminate.
  split.
  - exact Hother.
  - exact (@createSocket_frame linux_constants unset_world 0%nat 1 1%nat
             Hother).
Defined.

Lemma createSocket_binds_or_throws_witness :
  (w_fd unset_world 0%nat <= 0 /\
   0 < w_fd (world_after (linux_createSocket 0%nat 1) unset_world) 0%nat /\
   w_fd (world_after (linux_createSocket 0%nat 1) unset_world) 0%nat
   = fst (next_os_answer unset_world) /\
   w_pending (world_after (linux_createSocket 0%nat 1) unset_world)
   = w_pending unset_world)
  \/
  ((forall o : jobject,
      w_fd (world_after (linux_createSocket 0%nat 1) unset_world) o
      = w_fd unset_world o) /\
   exists t : Throwable,
     @createSocket_throwable
       (w_errno (world_after (linux_createSocket 0%nat 1) unset_world))
       0%nat t /\
     w_pending (world_after (linux_createSocket 0%nat 1) unset_world)
     = Some t).
Proof.
  exact (@createSocket_binds_or_throws linux_constants unset_world 0%nat 1
           linux_native_kinds_not_sentinel).
Defined.

Lemma createSocket_requests_mapped_kind_witness :
  w_fd unset_world 0%nat <= 0 /\
  w_calls (world_after (linux_createSocket 0%nat 1) unset_world)
  = w_calls unset_world ++ [sys_socket 1 1 0] /\
  w_calls (world_after (linux_createSocket 0%nat 2) unset_world)
  = w_calls unset_world ++ [sys_socket 1 2 0] /\
  w_calls (world_after (linux_createSocket 0%nat 5) unset_world)
  = w_calls unset_world ++ [sys_socket 1 5 0].
Proof.
  assert (w_fd unset_world 0%nat <= 0) as Hunset by (simpl; lia).
  split.
  - exact Hunset.
  - exact (@createSocket_requests_mapped_kind linux_constants unset_world 0%nat
             linux_distinct_kind_tags linux_native_kinds_not_sentinel Hunset).
Defined.

Lemma createSocket_twice_witness :
  (w_fd unset_world 0%nat <= 0 /\
   @valid_kind linux_constants 1 /\
   0 < fst (next_os_answer unset_world)) /\
  w_fd (world_after (linux_createSocket 0%nat 1) unset_world) 0%nat
  = fst (next_os_answer unset_world) /\
  w_fd (world_after (linux_createSocket 0%nat 7)
          (world_after (linux_createSocket 0%nat 1) unset_world)) 0%nat
  = fst (next_os_answer unset_world) /\
  w_pending (world_after (linux_createSocket 0%nat 7)
               (world_after (linux_createSocket 0%nat 1) unset_world))
  = Some (Thrown kExceptionSocketException "Already created") /\
  w_calls (world_after (linux_createSocket 0%nat 7)
             (world_after (linux_createSocket 0%nat 1) unset_world))
  = w_calls (world_after (linux_createSocket 0%nat 1) unset_world) /\
  List.length
    (w_calls (world_after (linux_createSocket 0%nat 7)
                (world_after (linux_createSocket 0%nat 1) unset_world)))
  = S (List.length (w_calls unset_world)).
Proof.
  assert (w_fd unset_world 0%nat <= 0) as Hunset by (simpl; lia).
  assert (@valid_kind linux_constants 1) as Hvalid by (left; reflexivity).
  assert (0 < fst (next_os_answer unset_world)) as Hok by (simpl; lia).
  split.
  - repeat split; assumption.
  - exact (@createSocket_twice linux_constants unset_world 0%nat 1 7
             linux_native_kinds_not_sentinel Hunset Hvalid Hok).
Defined.

Lemma createSocket_retry_after_os_error_witness :
  (w_fd retry_world 0%nat <= 0 /\
   @valid_kind linux_constants 1 /\
   @valid_kind linux_constants 2 /\
   fst (next_os_answer retry_world) <= 0 /\
   0 < fst (w_os retry_world (S (List.length (w_calls retry_world))))) /\
  w_fd (world_after (linux_createSocket 0%nat 1) retry_world) 0%nat
  = w_fd retry_world 0%nat /\
  w_fd (world_after (linux_createSocket 0%nat 2)
          (world_after (linux_createSocket 0%nat 1) retry_world)) 0%nat
  = fst (w_os retry_world (S (List.length (w_calls retry_world)))) /\
  List.length
    (w_calls (world_after (linux_createSocket 0%nat 2)
                (world_after (linux_createSocket 0%nat 1) retry_world)))
  = S (S (List.length (w_calls retry_world))).
Proof.
  assert (w_fd retry_world 0%nat <= 0) as Hunset by (simpl; lia).
  assert (@valid_kind linux_constants 1) as Hvalid1 by (left; reflexivity).
  assert (@valid_kind linux_constants 2) as Hvalid2
    by (right; left; reflexivity).
  assert (fst (next_os_answer retry_world) <= 0) as Hfail by (simpl; lia).
  assert (0 < fst (w_os retry_world (S (List.length (w_calls retry_world)))))
    as Hok by (simpl; lia).
  split.
  - repeat split; assumption.
  - exact (@createSocket_retry_after_os_error linux_constants retry_world
             0%nat 1 2 linux_native_kinds_not_sentinel Hunset Hvalid1 Hvalid2
             Hfail Hok).
Defined.

Lemma run_calls_keep_bound_handle_witness :
  0 < w_fd bound_world 0%nat /\
  w_fd (world_after
          (@run_calls linux_constants linux_build
             [call_createSocket 0%nat 1; call_capabilities;
              call_destroy_capabilities; call_createSocket 0%nat 7])
          bound_world) 0%nat
  = w_fd bound_world 0%nat.
Proof.
  assert (0 < w_fd bound_world 0%nat) as Hbound by (simpl; lia).
  split.
  - exact Hbound.
  - exact (@run_calls_keep_bound_handle linux_constants linux_build
             [call_createSocket 0%nat 1; call_capabilities;
              call_destroy_capabilities; call_createSocket 0%nat 7]
             bound_world 0%nat Hbound).
Defined.
